(** * quakeworx_workshop_pycsep: the docker helper scripts [build.py] and [push.py]

    Both scripts are straight-line Python programs.  They read the clock,
    format strings, print to standard output and hand command lines to
    [os.system].  The embedding below keeps that shape: a script is a
    computation in a small monad that reads an environment (clock, argv,
    environment variables, the statuses the shell will answer) and appends
    to a trace of its actions.  What [print] writes goes through the
    buffer of [sys.stdout]; [deliver] replays a trace through that buffer
    and gives the order in which things happen outside the interpreter. *)

From Stdlib Require Import ZArith String Ascii List Bool Lia.
From Stdlib Require Import DecimalString.
From ExtLib Require Import Structures.Monad.
Import ListNotations.
Import MonadNotation.

Local Open Scope string_scope.
Local Open Scope Z_scope.
Local Open Scope monad_scope.

(** ** Python string formatting, as far as the scripts use it *)

Module PyFormat.

(** [str(n)] for a Python [int]: optional minus sign, decimal digits. *)
Definition str_int (n : Z) : string :=
  NilEmpty.string_of_int (Z.to_int n).

Fixpoint zeros (k : nat) : string :=
  match k with
  | O => ""
  | S k' => String "0" (zeros k')
  end.

(** Left padding with ["0"] up to [width] characters. *)
Definition zero_pad (width : nat) (digits : string) : string :=
  zeros (width - String.length digits) ++ digits.

(** The conversion [%0<width>d] applied to an [int]: the sign comes
    first and counts towards the width, zeros fill what is left. *)
Definition pct_0d (width : nat) (n : Z) : string :=
  if n <? 0
  then String "-" (zero_pad (width - 1) (str_int (- n)))
  else zero_pad width (str_int n).

(** The conversion [%s] applied to a [str]. *)
Definition pct_s (s : string) : string := s.

End PyFormat.

(** ** What a script can observe and what it does *)

(** The fields of [datetime.datetime]. *)
Record datetime : Type := mkDatetime {
  year : Z;
  month : Z;
  day : Z;
  hour : Z;
  minute : Z;
  second : Z;
  microsecond : Z
}.

(** The invariant the [datetime] constructor enforces on the fields the
    scripts read. *)
Definition valid_month_day (dt : datetime) : Prop :=
  1 <= month dt <= 12 /\ 1 <= day dt <= 31.

(** [dt.date()]: the calendar day without the time of day. *)
Definition date_of (dt : datetime) : Z * Z * Z :=
  (year dt, month dt, day dt).

(** In a trace of a script: its actions in program order, [Stdout t]
    being text that [print] wrote into [sys.stdout].  In what [deliver]
    gives: what happens outside, [Stdout t] being text that arrived on
    standard output. *)
Inductive event : Type :=
| Exec (cmd : string)      (* a command line run by [os.system] *)
| Stdout (text : string).

(** How the interpreter opened [sys.stdout]: written through under [-u]
    or [PYTHONUNBUFFERED], line-buffered on a terminal, block-buffered on
    a file or a pipe. *)
Inductive buffering : Type :=
| Unbuffered
| LineBuffered
| BlockBuffered.

(** Everything outside the script.  [env_status k c] is the status
    [os.system] answers when [c] is the [k]-th command run (counted
    from 0): any integer, zero or not. *)
Record Env : Type := mkEnv {
  env_today : datetime;
  env_argv : list string;
  env_environ : list (string * string);
  env_status : nat -> string -> Z;
  env_stdout : buffering
}.

Definition with_status (env : Env) (st : nat -> string -> Z) : Env :=
  mkEnv (env_today env) (env_argv env) (env_environ env) st (env_stdout env).

Inductive Result (A : Type) : Type :=
| Value (a : A)
| Raised (exn : string).
Arguments Value {A} a.
Arguments Raised {A} exn.

(** A script reads the environment and extends the trace; an exception
    that nobody catches stops it. *)
Definition Script (A : Type) : Type :=
  Env -> list event -> Result A * list event.

#[export] Instance Monad_Script : Monad Script := {|
  ret := fun _ a => fun _ tr => (Value a, tr);
  bind := fun _ _ c k => fun env tr =>
    match c env tr with
    | (Value a, tr') => k a env tr'
    | (Raised e, tr') => (Raised e, tr')
    end
|}.

(** The command lines of a trace, in order. *)
Fixpoint commands (tr : list event) : list string :=
  match tr with
  | [] => []
  | Exec c :: tr' => c :: commands tr'
  | Stdout _ :: tr' => commands tr'
  end.

(** All the text of a trace. *)
Fixpoint stdout (tr : list event) : string :=
  match tr with
  | [] => ""
  | Exec _ :: tr' => stdout tr'
  | Stdout t :: tr' => t ++ stdout tr'
  end.

Definition NUL : ascii := Ascii.zero.
Definition newline : string := String (ascii_of_nat 10) "".

Fixpoint has_nul (s : string) : bool :=
  match s with
  | "" => false
  | String c s' => Ascii.eqb c NUL || has_nul s'
  end.

(** [datetime.datetime.today()] *)
Definition datetime_today : Script datetime :=
  fun env tr => (Value (env_today env), tr).

(** [os.system(cmd)]: the command line goes to the shell and the status
    comes back as an [int]; a non-zero status raises nothing.  The only
    exception is the one for a NUL character inside [cmd], raised before
    anything runs. *)
Definition os_system (cmd : string) : Script Z :=
  fun env tr =>
    if has_nul cmd
    then (Raised "ValueError: embedded null byte", tr)
    else (Value (env_status env (List.length (commands tr)) cmd),
          (tr ++ [Exec cmd])%list).

(** [print(a, b)] writes into [sys.stdout] the arguments separated by
    one space, then a newline.  When that text leaves the interpreter is
    the business of the buffer, see [deliver]. *)
Definition print (args : list string) : Script unit :=
  fun _ tr =>
    (Value tt, (tr ++ [Stdout (String.concat " " args ++ newline)])%list).

(** What [print("Running: ", cmd)] writes: the separator of [print]
    follows the blank that ends the first argument. *)
Definition running_line (cmd : string) : string :=
  "Running: " ++ " " ++ cmd ++ newline.

(** Running a script from an empty trace. *)
Definition run (s : Script unit) (env : Env) : Result unit * list event :=
  s env [].

(** The exit code of the interpreter: 0 when the script runs off its
    end, 1 when an exception is left uncaught. *)
Definition exit_code (r : Result unit * list event) : Z :=
  match fst r with
  | Value _ => 0
  | Raised _ => 1
  end.

(** ** The buffer of [sys.stdout] *)

(** [io.DEFAULT_BUFFER_SIZE] *)
Definition buffer_size : Z := 8192.

Definition LF : ascii := ascii_of_nat 10.
Definition CR : ascii := ascii_of_nat 13.

(** The text holds a line end, which is what a line-buffered stream
    looks for after each write. *)
Fixpoint has_line_end (s : string) : bool :=
  match s with
  | "" => false
  | String c s' => Ascii.eqb c LF || Ascii.eqb c CR || has_line_end s'
  end.

(** Whether writing [text] behind [pending] empties the buffer. *)
Definition flushes (mode : buffering) (pending text : string) : bool :=
  match mode with
  | Unbuffered => true
  | LineBuffered => has_line_end text
  | BlockBuffered => buffer_size <? Z.of_nat (String.length (pending ++ text))
  end.

Definition flush (pending : string) : list event :=
  match pending with
  | "" => []
  | _ => [Stdout pending]
  end.

(** A trace replayed through the buffer.  [os.system] runs its command
    at once and does not flush [sys.stdout]; neither script calls
    [flush]; what is still pending when the script ends is written when
    the interpreter exits. *)
Fixpoint deliver (mode : buffering) (pending : string) (tr : list event)
  : list event :=
  match tr with
  | [] => flush pending
  | Exec c :: tr' => Exec c :: deliver mode pending tr'
  | Stdout t :: tr' =>
      if flushes mode pending t
      then (flush (pending ++ t) ++ deliver mode "" tr')%list
      else deliver mode (pending ++ t) tr'
  end.

(** What a run looks like from outside: commands run and text arriving
    on standard output, in the order they happen. *)
Definition observed (s : Script unit) (env : Env) : list event :=
  deliver (env_stdout env) "" (snd (run s env)).

(** The text already on standard output when [cmd] starts. *)
Fixpoint output_before (cmd : string) (evs : list event) : string :=
  match evs with
  | [] => ""
  | Exec c :: evs' =>
      if String.eqb c cmd then "" else output_before cmd evs'
  | Stdout t :: evs' => t ++ output_before cmd evs'
  end.

(** ** build.py *)

Module Build.

(** [mdate="%02d%02d"%(month,day)] *)
Definition mdate (month day : Z) : string :=
  PyFormat.pct_0d 2 month ++ PyFormat.pct_0d 2 day.

(** The first value of [cmd]: three adjacent literals, joined by the
    parser, then [% (mdate)]. *)
Definition cmd_build (mdate : string) : string :=
  ("docker build --progress=plain --no-cache=false -f Dockerfile . -t pycsep_quakeworx_workshop "
   ++ "--build-arg APP_UNAME=csepuser --build-arg APP_GRPNAME=csepuser "
   ++ "--build-arg APP_UID=1000 --build-arg APP_GID=1000 --build-arg BDATE=")
  ++ PyFormat.pct_s mdate.

(** The second value of [cmd]. *)
Definition cmd_tag : string :=
  "docker tag pycsep_quakeworx_workshop sceccode/pycsep_quakeworx_workshop".

Definition main : Script unit :=
  dt <- datetime_today ;;
  let month := month dt in
  let day := day dt in
  let mdate := mdate month day in
  let cmd := cmd_build mdate in
  _ <- os_system cmd ;;
  let cmd := cmd_tag in
  print ["Running: "; cmd] ;;
  _ <- os_system cmd ;;
  ret tt.

End Build.

(** ** push.py *)

Module Push.

Definition cmd : string :=
  "docker push sceccode/pycsep_quakeworx_workshop".

Definition main : Script unit :=
  let cmd := cmd in
  print ["Running: "; cmd] ;;
  _ <- os_system cmd ;;
  ret tt.

End Push.

(** ** Vocabulary of the specification *)

(** [sub] occurs somewhere inside [s]. *)
Definition Contains (s sub : string) : Prop :=
  exists pre post, s = pre ++ sub ++ post.

(** The same, as a test that runs. *)
Fixpoint contains (s sub : string) : bool :=
  String.prefix sub s ||
  match s with
  | "" => false
  | String _ s' => contains s' sub
  end.

Definition digit (n : Z) : ascii := ascii_of_nat (48 + Z.to_nat n).

(** A number below 100 written with exactly two decimal digits, as the
    specification words it: tens first, then units. *)
Definition two_digits (n : Z) : string :=
  String (digit (n / 10)) (String (digit (n mod 10)) "").

(** A test on every integer below a bound, by running it. *)
Fixpoint all_below (k : nat) (p : Z -> bool) : bool :=
  match k with
  | O => true
  | S k' => p (Z.of_nat k') && all_below k' p
  end.

(** A test on every character of a string. *)
Fixpoint all_chars (p : ascii -> bool) (s : string) : bool :=
  match s with
  | "" => true
  | String c s' => p c && all_chars p s'
  end.

Definition is_digit (c : ascii) : bool :=
  ((48 <=? nat_of_ascii c) && (nat_of_ascii c <=? 57))%nat.

Definition is_letter (c : ascii) : bool :=
  (((65 <=? nat_of_ascii c) && (nat_of_ascii c <=? 90)) ||
   ((97 <=? nat_of_ascii c) && (nat_of_ascii c <=? 122)))%nat.

(** Characters the shell reads as themselves and as nothing more:
    letters, digits, the blank between words, and [- = . _ /]. *)
Definition is_plain (c : ascii) : bool :=
  is_letter c || is_digit c ||
  existsb (Ascii.eqb c) (list_ascii_of_string " -=._/").

(** Calendar order inside one year. *)
Definition earlier_in_year (m d m' d' : Z) : bool :=
  (m <? m') || ((m =? m') && (d <? d')).

(** A day on which every command succeeds, at a terminal. *)
Definition env_on (y m d : Z) : Env :=
  mkEnv (mkDatetime y m d 9 30 0 0) [] [] (fun _ _ => 0) LineBuffered.

(** The same day, late at night, with arguments and variables set, a
    shell on which every command fails with exit status 1, and standard
    output sent to a file. *)
Definition env_failing (y m d : Z) : Env :=
  mkEnv (mkDatetime y m d 23 59 58 7) ["build.py"; "--please"]
        [("DOCKER_HOST", "tcp://nowhere:1")] (fun _ _ => 256)
        BlockBuffered.

(** ** Strings *)

Section StringFacts.

Lemma app_assoc_string (a b c : string) : (a ++ b) ++ c = a ++ (b ++ c).
Proof.
  induction a as [|x a IH]; simpl; [reflexivity | now rewrite IH].
Qed.

Lemma app_empty_r (a : string) : a ++ "" = a.
Proof.
  induction a as [|x a IH]; simpl; [reflexivity | now rewrite IH].
Qed.

Lemma prefix_split (p s : string) :
  String.prefix p s = true -> exists post, s = p ++ post.
Proof.
  revert s; induction p as [|x p IH]; intros s H.
  - now exists s.
  - destruct s as [|y s]; simpl in H; [discriminate |].
    destruct (Ascii.ascii_dec x y) as [->|]; [| discriminate].
    destruct (IH s H) as [post ->]. now exists post.
Qed.

Lemma prefix_app (p post : string) : String.prefix p (p ++ post) = true.
Proof.
  induction p as [|x p IH]; simpl.
  - now destruct post.
  - destruct (Ascii.ascii_dec x x); [exact IH | congruence].
Qed.

Lemma contains_sound (s sub : string) :
  contains s sub = true -> Contains s sub.
Proof.
  induction s as [|x s IH]; cbn [contains]; intros H;
    apply orb_true_iff in H; destruct H as [H|H].
  - destruct (prefix_split _ _ H) as [post E]. now exists "", post.
  - discriminate.
  - destruct (prefix_split _ _ H) as [post E]. now exists "", post.
  - destruct (IH H) as (pre & post & ->). now exists (String x pre), post.
Qed.

Lemma contains_complete (s sub : string) :
  Contains s sub -> contains s sub = true.
Proof.
  intros (pre & post & ->).
  induction pre as [|x pre IH].
  - change ("" ++ sub ++ post) with (sub ++ post).
    destruct (sub ++ post) eqn:E; cbn [contains];
      apply orb_true_iff; left; rewrite <- E; apply prefix_app.
  - change (String x pre ++ sub ++ post)
      with (String x (pre ++ sub ++ post)).
    cbn [contains]. apply orb_true_iff; right. exact IH.
Qed.

Lemma Contains_app_r (s t sub : string) :
  Contains s sub -> Contains (s ++ t) sub.
Proof.
  intros (pre & post & ->). exists pre, (post ++ t).
  now rewrite !app_assoc_string.
Qed.

Lemma Contains_shorter (s a b : string) :
  Contains s (a ++ b) -> Contains s a.
Proof.
  intros (pre & post & ->). exists pre, (b ++ post).
  now rewrite app_assoc_string.
Qed.

Lemma has_nul_app (a b : string) :
  has_nul (a ++ b) = has_nul a || has_nul b.
Proof.
  induction a as [|x a IH]; simpl; [reflexivity |].
  now rewrite IH, orb_assoc.
Qed.

End StringFacts.

(** ** Formatting *)

Section FormatFacts.

Import PyFormat.

Lemma all_below_spec (k : nat) (p : Z -> bool) :
  all_below k p = true ->
  forall n, 0 <= n < Z.of_nat k -> p n = true.
Proof.
  induction k as [|k IH]; intros H n Hn.
  - simpl in Hn. lia.
  - cbn [all_below] in H. apply andb_true_iff in H. destruct H as [Hk Hrest].
    destruct (Z.eq_dec n (Z.of_nat k)) as [->|Hne]; [exact Hk |].
    apply IH; [exact Hrest | lia].
Qed.

(** On 0..99, [%02d] writes exactly the tens digit and the units digit. *)
Lemma pct_02d_two_digits (n : Z) :
  0 <= n < 100 -> pct_0d 2 n = two_digits n.
Proof.
  intros Hn.
  apply String.eqb_eq.
  apply (all_below_spec 100
           (fun k => String.eqb (pct_0d 2 k) (two_digits k)));
    [vm_compute; reflexivity | exact Hn].
Qed.

Lemma has_nul_uint (d : Decimal.uint) :
  has_nul (NilEmpty.string_of_uint d) = false.
Proof. induction d; simpl; auto. Qed.

Lemma has_nul_str_int (n : Z) : has_nul (str_int n) = false.
Proof.
  unfold str_int. destruct (Z.to_int n); simpl; apply has_nul_uint.
Qed.

Lemma has_nul_zeros (k : nat) : has_nul (zeros k) = false.
Proof. induction k; simpl; auto. Qed.

Lemma has_nul_zero_pad (w : nat) (s : string) :
  has_nul s = false -> has_nul (zero_pad w s) = false.
Proof.
  intros H. unfold zero_pad. now rewrite has_nul_app, has_nul_zeros, H.
Qed.

Lemma has_nul_pct_0d (w : nat) (n : Z) : has_nul (pct_0d w n) = false.
Proof.
  unfold pct_0d. destruct (n <? 0).
  - cbn [has_nul]. rewrite has_nul_zero_pad by apply has_nul_str_int.
    reflexivity.
  - apply has_nul_zero_pad, has_nul_str_int.
Qed.

Lemma has_nul_cmd_build (m d : Z) :
  has_nul (Build.cmd_build (Build.mdate m d)) = false.
Proof.
  unfold Build.cmd_build, Build.mdate, pct_s.
  rewrite !has_nul_app, !has_nul_pct_0d. reflexivity.
Qed.

End FormatFacts.

(** ** The traces of the two scripts *)

Section Traces.

Variable env : Env.

Lemma run_build :
  run Build.main env =
  (Value tt,
   [Exec (Build.cmd_build
            (Build.mdate (month (env_today env)) (day (env_today env))));
    Stdout (running_line Build.cmd_tag);
    Exec Build.cmd_tag]).
Proof.
  unfold run, Build.main.
  cbn [bind ret Monad_Script datetime_today].
  unfold os_system at 1.
  rewrite has_nul_cmd_build.
  reflexivity.
Qed.

Lemma run_push :
  run Push.main env =
  (Value tt, [Stdout (running_line Push.cmd); Exec Push.cmd]).
Proof. reflexivity. Qed.

Lemma commands_build :
  commands (snd (run Build.main env)) =
  [Build.cmd_build
     (Build.mdate (month (env_today env)) (day (env_today env)));
   Build.cmd_tag].
Proof. rewrite run_build. reflexivity. Qed.

Lemma commands_push :
  commands (snd (run Push.main env)) = [Push.cmd].
Proof. reflexivity. Qed.

End Traces.

(** ** Exit status and unchecked command results *)

(** C1. Whatever statuses the shell answers for the commands, failures
    included, both scripts run to their end and exit with code 0, and
    nothing they do (commands run, text printed, result) depends on
    those statuses: no status is inspected, no error is passed on. *)
Theorem exit_code_ignores_command_status
    (env : Env) (st : nat -> string -> Z) :
  exit_code (run Build.main (with_status env st)) = 0 /\
  exit_code (run Push.main (with_status env st)) = 0 /\
  run Build.main (with_status env st) = run Build.main env /\
  run Push.main (with_status env st) = run Push.main env.
Proof.
  rewrite !run_build, !run_push. cbn. repeat split.
Qed.

Example build_exit_code_when_docker_fails :
  exit_code (run Build.main (env_failing 2024 11 23)) = 0.
Proof. reflexivity. Qed.

Example push_exit_code_when_docker_fails :
  exit_code (run Push.main (env_failing 2024 11 23)) = 0.
Proof. reflexivity. Qed.

(** ** The build command *)

(** C2. For a date with month 1..12 and day 1..31, the build command
    contains [--build-arg BDATE=MMDD], MM and DD being the month and the
    day written with two decimal digits each. *)
Theorem build_cmd_contains_bdate (env : Env) :
  valid_month_day (env_today env) ->
  exists cmd,
    nth_error (commands (snd (run Build.main env))) 0 = Some cmd /\
    Contains cmd
      ("--build-arg BDATE="
       ++ two_digits (month (env_today env))
       ++ two_digits (day (env_today env))).
Proof.
  intros [Hm Hd].
  rewrite commands_build. eexists; split; [reflexivity |].
  unfold Build.cmd_build, Build.mdate, PyFormat.pct_s.
  rewrite !pct_02d_two_digits by lia.
  exists ("docker build --progress=plain --no-cache=false -f Dockerfile . "
          ++ "-t pycsep_quakeworx_workshop --build-arg APP_UNAME=csepuser "
          ++ "--build-arg APP_GRPNAME=csepuser --build-arg APP_UID=1000 "
          ++ "--build-arg APP_GID=1000 "), "".
  rewrite !app_empty_r. reflexivity.
Qed.

Lemma build_cmd_contains_bdate_witness :
  valid_month_day (env_today (env_on 2024 3 7)) /\
  exists cmd,
    nth_error (commands (snd (run Build.main (env_on 2024 3 7)))) 0
      = Some cmd /\
    Contains cmd "--build-arg BDATE=0307".
Proof.
  assert (H : valid_month_day (env_today (env_on 2024 3 7)))
    by (unfold valid_month_day; simpl; lia).
  split; [exact H |].
  exact (build_cmd_contains_bdate (env_on 2024 3 7) H).
Defined.

Example bdate_2024_11_23 :
  contains (Build.cmd_build (Build.mdate 11 23)) "--build-arg BDATE=1123"
  = true.
Proof. reflexivity. Qed.

Example bdate_2024_01_01 :
  contains (Build.cmd_build (Build.mdate 1 1)) "--build-arg BDATE=0101"
  = true.
Proof. reflexivity. Qed.

(** C3. On every date the build command contains the four fixed build
    arguments with their literal values. *)
Theorem build_cmd_fixed_args (env : Env) :
  exists cmd,
    nth_error (commands (snd (run Build.main env))) 0 = Some cmd /\
    Contains cmd "--build-arg APP_UNAME=csepuser" /\
    Contains cmd "--build-arg APP_GRPNAME=csepuser" /\
    Contains cmd "--build-arg APP_UID=1000" /\
    Contains cmd "--build-arg APP_GID=1000".
Proof.
  rewrite commands_build. eexists; split; [reflexivity |].
  unfold Build.cmd_build.
  repeat split; apply Contains_app_r, contains_sound; vm_compute; reflexivity.
Qed.

(** C4. For a date with month 1..12 and day 1..31 the first command the
    build script runs is, character for character, the [docker build]
    line of the interface description, ending in [BDATE=MMDD]. *)
Theorem build_first_command_exact (env : Env) :
  valid_month_day (env_today env) ->
  nth_error (commands (snd (run Build.main env))) 0 =
  Some ("docker build --progress=plain --no-cache=false -f Dockerfile . -t pycsep_quakeworx_workshop --build-arg APP_UNAME=csepuser --build-arg APP_GRPNAME=csepuser --build-arg APP_UID=1000 --build-arg APP_GID=1000 --build-arg BDATE="
        ++ two_digits (month (env_today env))
        ++ two_digits (day (env_today env))).
Proof.
  intros [Hm Hd].
  rewrite commands_build.
  unfold Build.cmd_build, Build.mdate, PyFormat.pct_s.
  rewrite !pct_02d_two_digits by lia.
  reflexivity.
Qed.

Lemma build_first_command_exact_witness :
  valid_month_day (env_today (env_on 2025 12 31)) /\
  nth_error (commands (snd (run Build.main (env_on 2025 12 31)))) 0 =
  Some "docker build --progress=plain --no-cache=false -f Dockerfile . -t pycsep_quakeworx_workshop --build-arg APP_UNAME=csepuser --build-arg APP_GRPNAME=csepuser --build-arg APP_UID=1000 --build-arg APP_GID=1000 --build-arg BDATE=1231".
Proof.
  assert (H : valid_month_day (env_today (env_on 2025 12 31)))
    by (unfold valid_month_day; simpl; lia).
  split; [exact H |].
  exact (build_first_command_exact (env_on 2025 12 31) H).
Defined.

(** ** The re-tag and push commands *)

(** C5. On every date, and whatever status the build command came back
    with, the second command the build script runs is exactly
    [docker tag pycsep_quakeworx_workshop sceccode/pycsep_quakeworx_workshop]. *)
Theorem build_second_command_is_tag
    (env : Env) (st : nat -> string -> Z) :
  nth_error (commands (snd (run Build.main (with_status env st)))) 1 =
  Some "docker tag pycsep_quakeworx_workshop sceccode/pycsep_quakeworx_workshop".
Proof. rewrite commands_build. reflexivity. Qed.

(** C6. The push script runs one command and no other, exactly
    [docker push sceccode/pycsep_quakeworx_workshop], whatever the date,
    the arguments and the environment. *)
Theorem push_only_command (env : Env) :
  commands (snd (run Push.main env)) =
  ["docker push sceccode/pycsep_quakeworx_workshop"].
Proof. apply commands_push. Qed.

(** ** Order of the commands *)

(** C7. Every run of the build script issues exactly two commands: the
    build command first, the re-tag command second, the latter whatever
    status the former came back with. *)
Theorem build_two_commands_in_order
    (env : Env) (st : nat -> string -> Z) :
  let tr := snd (run Build.main (with_status env st)) in
  commands tr =
    [Build.cmd_build
       (Build.mdate (month (env_today env)) (day (env_today env)));
     Build.cmd_tag] /\
  List.length (commands tr) = 2%nat /\
  Contains
    (Build.cmd_build
       (Build.mdate (month (env_today env)) (day (env_today env))))
    "docker build" /\
  Contains Build.cmd_tag "docker tag".
Proof.
  cbv zeta. rewrite commands_build. cbn [with_status env_today].
  repeat split.
  - unfold Build.cmd_build. apply Contains_app_r, contains_sound.
    vm_compute; reflexivity.
  - apply contains_sound. vm_compute; reflexivity.
Qed.

Example build_on_2025_12_31 :
  commands (snd (run Build.main (env_failing 2025 12 31))) =
  ["docker build --progress=plain --no-cache=false -f Dockerfile . -t pycsep_quakeworx_workshop --build-arg APP_UNAME=csepuser --build-arg APP_GRPNAME=csepuser --build-arg APP_UID=1000 --build-arg APP_GID=1000 --build-arg BDATE=1231";
   "docker tag pycsep_quakeworx_workshop sceccode/pycsep_quakeworx_workshop"].
Proof. reflexivity. Qed.

(** ** What is printed *)

(** C8, as the claim words it, fails when standard output is a file or
    a pipe: the command starts with nothing on standard output, and the
    line arrives after it. *)
Lemma push_line_after_command_when_redirected :
  observed Push.main (env_failing 2024 11 23) =
    [Exec "docker push sceccode/pycsep_quakeworx_workshop";
     Stdout ("Running:  docker push sceccode/pycsep_quakeworx_workshop"
             ++ newline)] /\
  output_before "docker push sceccode/pycsep_quakeworx_workshop"
    (observed Push.main (env_failing 2024 11 23)) = "" /\
  ~ Contains
      (output_before "docker push sceccode/pycsep_quakeworx_workshop"
         (observed Push.main (env_failing 2024 11 23)))
      "Running: ".
Proof.
  split; [reflexivity |]. split; [reflexivity |].
  intros H. apply contains_complete in H. vm_compute in H. discriminate.
Qed.

(** C8, amended. The push script calls [print] with a line that starts
    with [Running: ] and carries the command, then calls [os.system].
    When [sys.stdout] is line-buffered or unbuffered the line is on
    standard output before the command runs; when it is block-buffered
    the line is still pending while the command runs and arrives when
    the interpreter exits. *)
Theorem push_prints_before_running (env : Env) :
  let cmd := "docker push sceccode/pycsep_quakeworx_workshop" in
  let line := "Running: " ++ " " ++ cmd ++ newline in
  String.prefix "Running: " line = true /\
  snd (run Push.main env) = [Stdout line; Exec cmd] /\
  observed Push.main env =
    match env_stdout env with
    | BlockBuffered => [Exec cmd; Stdout line]
    | _ => [Stdout line; Exec cmd]
    end /\
  output_before cmd (observed Push.main env) =
    match env_stdout env with
    | BlockBuffered => ""
    | _ => line
    end.
Proof.
  cbv zeta. unfold observed. rewrite run_push.
  destruct (env_stdout env); repeat split.
Qed.

Example push_at_a_terminal :
  observed Push.main (env_on 2024 11 23) =
    [Stdout ("Running:  docker push sceccode/pycsep_quakeworx_workshop"
             ++ newline);
     Exec "docker push sceccode/pycsep_quakeworx_workshop"].
Proof. reflexivity. Qed.

(** C9, as the claim words it, fails when standard output is a file or
    a pipe: both commands have run before the line about the re-tag
    command arrives. *)
Lemma build_line_after_commands_when_redirected :
  observed Build.main (env_failing 2025 12 31) =
    [Exec "docker build --progress=plain --no-cache=false -f Dockerfile . -t pycsep_quakeworx_workshop --build-arg APP_UNAME=csepuser --build-arg APP_GRPNAME=csepuser --build-arg APP_UID=1000 --build-arg APP_GID=1000 --build-arg BDATE=1231";
     Exec "docker tag pycsep_quakeworx_workshop sceccode/pycsep_quakeworx_workshop";
     Stdout ("Running:  docker tag pycsep_quakeworx_workshop sceccode/pycsep_quakeworx_workshop"
             ++ newline)] /\
  output_before
    "docker tag pycsep_quakeworx_workshop sceccode/pycsep_quakeworx_workshop"
    (observed Build.main (env_failing 2025 12 31)) = "" /\
  ~ Contains
      (output_before
         "docker tag pycsep_quakeworx_workshop sceccode/pycsep_quakeworx_workshop"
         (observed Build.main (env_failing 2025 12 31)))
      "Running: ".
Proof.
  split; [reflexivity |]. split; [reflexivity |].
  intros H. apply contains_complete in H. vm_compute in H. discriminate.
Qed.

(** C9, amended. The build script calls [os.system] with the build
    command without printing it, then calls [print] with a line that
    starts with [Running: ] and carries the re-tag command, then calls
    [os.system] with the re-tag command.  When [sys.stdout] is
    line-buffered or unbuffered that line is on standard output before
    the re-tag command runs; when it is block-buffered the line arrives
    after both commands.  Either way standard output holds that one line
    and the build command occurs nowhere in it. *)
Theorem build_prints_only_tag_command (env : Env) :
  let build_cmd :=
    "docker build --progress=plain --no-cache=false -f Dockerfile . -t pycsep_quakeworx_workshop --build-arg APP_UNAME=csepuser --build-arg APP_GRPNAME=csepuser --build-arg APP_UID=1000 --build-arg APP_GID=1000 --build-arg BDATE="
    ++ Build.mdate (month (env_today env)) (day (env_today env)) in
  let tag_cmd :=
    "docker tag pycsep_quakeworx_workshop sceccode/pycsep_quakeworx_workshop" in
  let line := "Running: " ++ " " ++ tag_cmd ++ newline in
  String.prefix "Running: " line = true /\
  snd (run Build.main env) = [Exec build_cmd; Stdout line; Exec tag_cmd] /\
  observed Build.main env =
    match env_stdout env with
    | BlockBuffered => [Exec build_cmd; Exec tag_cmd; Stdout line]
    | _ => [Exec build_cmd; Stdout line; Exec tag_cmd]
    end /\
  stdout (observed Build.main env) = line /\
  ~ Contains (stdout (observed Build.main env)) build_cmd.
Proof.
  cbv zeta. unfold observed. rewrite run_build.
  assert (Hout : forall mode,
    stdout (deliver mode ""
      (snd (Value tt,
            [Exec (Build.cmd_build
                     (Build.mdate (month (env_today env))
                                  (day (env_today env))));
             Stdout (running_line Build.cmd_tag);
             Exec Build.cmd_tag]))) = running_line Build.cmd_tag)
    by (intros []; reflexivity).
  split; [reflexivity |]. split; [reflexivity |].
  split; [destruct (env_stdout env); reflexivity |].
  split; [apply Hout |].
  rewrite Hout. intros H.
  apply Contains_shorter, contains_complete in H.
  vm_compute in H. discriminate.
Qed.

Example build_at_a_terminal :
  output_before
    "docker tag pycsep_quakeworx_workshop sceccode/pycsep_quakeworx_workshop"
    (observed Build.main (env_on 2025 12 31)) =
  "Running:  docker tag pycsep_quakeworx_workshop sceccode/pycsep_quakeworx_workshop"
  ++ newline.
Proof. reflexivity. Qed.

(** ** Inputs of the scripts *)

(** C10. Two runs of the build script on the same date issue the same
    two commands, and any two runs of the push script issue the same
    command, whatever the time of day, the arguments, the environment
    variables and the statuses of the commands. *)
Theorem commands_depend_on_date_only (env1 env2 : Env) :
  (date_of (env_today env1) = date_of (env_today env2) ->
   commands (snd (run Build.main env1)) =
   commands (snd (run Build.main env2))) /\
  commands (snd (run Push.main env1)) =
  commands (snd (run Push.main env2)).
Proof.
  split.
  - unfold date_of. intros H. injection H as _ Hm Hd.
    rewrite !commands_build, Hm, Hd. reflexivity.
  - rewrite !commands_push. reflexivity.
Qed.

Lemma commands_depend_on_date_only_witness :
  date_of (env_today (env_on 2025 12 31)) =
  date_of (env_today (env_failing 2025 12 31)) /\
  commands (snd (run Build.main (env_on 2025 12 31))) =
  commands (snd (run Build.main (env_failing 2025 12 31))) /\
  commands (snd (run Push.main (env_on 2025 12 31))) =
  commands (snd (run Push.main (env_failing 2025 12 31))).
Proof.
  pose proof (commands_depend_on_date_only
                (env_on 2025 12 31) (env_failing 2025 12 31)) as [Hb Hp].
  split; [reflexivity |].
  split; [apply Hb; reflexivity | exact Hp].
Defined.

(** * Further properties of the scripts *)

(** ** Characters of the date tag and of the commands *)

Section Characters.

Import PyFormat.

Lemma all_chars_app (p : ascii -> bool) (a b : string) :
  all_chars p (a ++ b) = all_chars p a && all_chars p b.
Proof.
  induction a as [|x a IH]; simpl; [reflexivity |].
  now rewrite IH, andb_assoc.
Qed.

Lemma all_chars_weaken (p q : ascii -> bool) (s : string) :
  (forall c, p c = true -> q c = true) ->
  all_chars p s = true -> all_chars q s = true.
Proof.
  intros Hpq. induction s as [|x s IH]; simpl; [reflexivity |].
  intros H. apply andb_true_iff in H. destruct H as [Hx Hs].
  now rewrite (Hpq _ Hx), (IH Hs).
Qed.

Lemma is_digit_plain (c : ascii) : is_digit c = true -> is_plain c = true.
Proof.
  intros H. unfold is_plain. rewrite H.
  now rewrite orb_true_r.
Qed.

Lemma digits_uint (d : Decimal.uint) :
  all_chars is_plain (NilEmpty.string_of_uint d) = true.
Proof. induction d; simpl; auto. Qed.

Lemma plain_str_int (n : Z) : all_chars is_plain (str_int n) = true.
Proof.
  unfold str_int. destruct (Z.to_int n); simpl; apply digits_uint.
Qed.

Lemma plain_zeros (k : nat) : all_chars is_plain (zeros k) = true.
Proof. induction k; simpl; auto. Qed.

Lemma plain_pct_0d (w : nat) (n : Z) : all_chars is_plain (pct_0d w n) = true.
Proof.
  unfold pct_0d, zero_pad. destruct (n <? 0).
  - cbn [all_chars]. rewrite all_chars_app, plain_zeros, plain_str_int.
    reflexivity.
  - now rewrite all_chars_app, plain_zeros, plain_str_int.
Qed.

Lemma digits_two_digits (n : Z) :
  0 <= n < 100 -> all_chars is_digit (two_digits n) = true.
Proof.
  intros Hn.
  apply (all_below_spec 100 (fun k => all_chars is_digit (two_digits k)));
    [vm_compute; reflexivity | exact Hn].
Qed.

End Characters.

(** X4. Whatever the clock says, every command line either script
    hands to the shell is made of letters, digits, blanks and
    [- = . _ /] only: the interpolated date brings in no quote, no
    separator and no other character the shell would interpret. *)
Theorem commands_are_plain (env : Env) :
  Forall (fun c => all_chars is_plain c = true)
         (commands (snd (run Build.main env))) /\
  Forall (fun c => all_chars is_plain c = true)
         (commands (snd (run Push.main env))).
Proof.
  rewrite commands_build, commands_push. split.
  - constructor; [| constructor; [vm_compute; reflexivity | constructor]].
    unfold Build.cmd_build, Build.mdate, PyFormat.pct_s.
    rewrite !all_chars_app, !plain_pct_0d. vm_compute; reflexivity.
  - constructor; [vm_compute; reflexivity | constructor].
Qed.

(** X3. For a month in 1..12 and a day in 1..31 the date tag is four
    characters, all of them decimal digits, and the build command is
    228 characters long. *)
Theorem mdate_is_four_digits (env : Env) :
  valid_month_day (env_today env) ->
  let tag := Build.mdate (month (env_today env)) (day (env_today env)) in
  String.length tag = 4%nat /\
  all_chars is_digit tag = true /\
  String.length (Build.cmd_build tag) = 228%nat.
Proof.
  intros [Hm Hd]. cbv zeta.
  unfold Build.cmd_build, Build.mdate, PyFormat.pct_s.
  rewrite !pct_02d_two_digits by lia.
  repeat split.
  rewrite all_chars_app, !digits_two_digits by lia. reflexivity.
Qed.

Lemma mdate_is_four_digits_witness :
  valid_month_day (env_today (env_on 2024 1 1)) /\
  String.length (Build.mdate 1 1) = 4%nat /\
  all_chars is_digit (Build.mdate 1 1) = true /\
  String.length (Build.cmd_build (Build.mdate 1 1)) = 228%nat.
Proof.
  assert (H : valid_month_day (env_today (env_on 2024 1 1)))
    by (unfold valid_month_day; simpl; lia).
  split; [exact H |].
  exact (mdate_is_four_digits (env_on 2024 1 1) H).
Defined.

(** ** Which dates share a build command *)

Section TagsAndDates.

Lemma digit_inj (a b : Z) :
  0 <= a < 10 -> 0 <= b < 10 -> digit a = digit b -> a = b.
Proof.
  intros Ha Hb H. unfold digit in H.
  apply (f_equal nat_of_ascii) in H.
  rewrite !nat_ascii_embedding in H by lia. lia.
Qed.

Lemma two_digits_inj (a b : Z) :
  0 <= a < 100 -> 0 <= b < 100 -> two_digits a = two_digits b -> a = b.
Proof.
  intros Ha Hb H. unfold two_digits in H. injection H as Ht Hu.
  apply digit_inj in Ht;
    [| split; [apply Z.div_pos | apply Z.div_lt_upper_bound]; lia ..].
  apply digit_inj in Hu; [| apply Z.mod_pos_bound; lia ..].
  rewrite (Z.div_mod a 10), (Z.div_mod b 10) by lia.
  now rewrite Ht, Hu.
Qed.

Lemma mdate_inj (m d m' d' : Z) :
  0 <= m < 100 -> 0 <= d < 100 -> 0 <= m' < 100 -> 0 <= d' < 100 ->
  Build.mdate m d = Build.mdate m' d' -> m = m' /\ d = d'.
Proof.
  intros Hm Hd Hm' Hd' H. unfold Build.mdate in H.
  rewrite !pct_02d_two_digits in H by assumption.
  assert (Hmm : two_digits m = two_digits m')
    by (unfold two_digits in *; simpl in H; congruence).
  assert (Hdd : two_digits d = two_digits d')
    by (unfold two_digits in *; simpl in H; congruence).
  split; apply two_digits_inj; assumption.
Qed.

End TagsAndDates.

(** X1. Two runs of the build script on valid dates that issue the same
    commands happened on the same month and day: inside a year, each
    day gets a build command of its own. *)
Theorem build_commands_tell_month_day (env1 env2 : Env) :
  valid_month_day (env_today env1) ->
  valid_month_day (env_today env2) ->
  commands (snd (run Build.main env1)) =
  commands (snd (run Build.main env2)) ->
  month (env_today env1) = month (env_today env2) /\
  day (env_today env1) = day (env_today env2).
Proof.
  intros [Hm1 Hd1] [Hm2 Hd2] H.
  rewrite !commands_build in H. injection H as H.
  apply mdate_inj in H; [exact H | lia ..].
Qed.

Lemma build_commands_tell_month_day_witness :
  valid_month_day (env_today (env_on 2024 3 7)) /\
  valid_month_day (env_today (env_failing 2031 3 7)) /\
  commands (snd (run Build.main (env_on 2024 3 7))) =
  commands (snd (run Build.main (env_failing 2031 3 7))) /\
  month (env_today (env_on 2024 3 7)) =
  month (env_today (env_failing 2031 3 7)) /\
  day (env_today (env_on 2024 3 7)) =
  day (env_today (env_failing 2031 3 7)).
Proof.
  assert (H1 : valid_month_day (env_today (env_on 2024 3 7)))
    by (unfold valid_month_day; simpl; lia).
  assert (H2 : valid_month_day (env_today (env_failing 2031 3 7)))
    by (unfold valid_month_day; simpl; lia).
  assert (H3 : commands (snd (run Build.main (env_on 2024 3 7))) =
               commands (snd (run Build.main (env_failing 2031 3 7))))
    by reflexivity.
  split; [exact H1 |]. split; [exact H2 |]. split; [exact H3 |].
  exact (build_commands_tell_month_day _ _ H1 H2 H3).
Defined.

(** X2. The build script reads the month and the day and nothing else:
    two runs on the same month and day, in different years, at different
    times, with different arguments, variables and command statuses,
    give the same result, the same commands and the same output. *)
Theorem build_ignores_year_and_time (env1 env2 : Env) :
  month (env_today env1) = month (env_today env2) ->
  day (env_today env1) = day (env_today env2) ->
  run Build.main env1 = run Build.main env2.
Proof.
  intros Hm Hd. rewrite !run_build, Hm, Hd. reflexivity.
Qed.

Lemma build_ignores_year_and_time_witness :
  year (env_today (env_on 2024 3 7)) <>
  year (env_today (env_failing 2031 3 7)) /\
  run Build.main (env_on 2024 3 7) =
  run Build.main (env_failing 2031 3 7).
Proof.
  split; [simpl; lia |].
  apply (build_ignores_year_and_time
           (env_on 2024 3 7) (env_failing 2031 3 7)); reflexivity.
Defined.

(** ** Order of the date tags *)

Lemma mdate_order_table :
  all_below 13 (fun m => all_below 32 (fun d =>
  all_below 13 (fun m' => all_below 32 (fun d' =>
    Bool.eqb (String.ltb (Build.mdate m d) (Build.mdate m' d'))
             (earlier_in_year m d m' d'))))) = true.
Proof. vm_compute. reflexivity. Qed.

(** X6. Zero padding makes the tags of one year sort like the days:
    for valid dates, the tag of one is below the tag of the other in
    the order of strings exactly when its month is earlier, or the
    month is the same and its day is earlier. *)
Theorem mdate_sorts_by_calendar (dt1 dt2 : datetime) :
  valid_month_day dt1 ->
  valid_month_day dt2 ->
  String.ltb (Build.mdate (month dt1) (day dt1))
             (Build.mdate (month dt2) (day dt2)) =
  earlier_in_year (month dt1) (day dt1) (month dt2) (day dt2).
Proof.
  intros [Hm1 Hd1] [Hm2 Hd2].
  apply Bool.eqb_prop.
  pose proof (all_below_spec _ _ mdate_order_table (month dt1)
                ltac:(simpl; lia)) as T1. cbv beta in T1.
  pose proof (all_below_spec _ _ T1 (day dt1) ltac:(simpl; lia)) as T2.
  cbv beta in T2.
  pose proof (all_below_spec _ _ T2 (month dt2) ltac:(simpl; lia)) as T3.
  cbv beta in T3.
  exact (all_below_spec _ _ T3 (day dt2) ltac:(simpl; lia)).
Qed.

Lemma mdate_sorts_by_calendar_witness :
  valid_month_day (mkDatetime 2024 9 30 0 0 0 0) /\
  valid_month_day (mkDatetime 2024 10 1 0 0 0 0) /\
  String.ltb "0930" "1001" = true.
Proof.
  assert (H1 : valid_month_day (mkDatetime 2024 9 30 0 0 0 0))
    by (unfold valid_month_day; simpl; lia).
  assert (H2 : valid_month_day (mkDatetime 2024 10 1 0 0 0 0))
    by (unfold valid_month_day; simpl; lia).
  split; [exact H1 |]. split; [exact H2 |].
  exact (mdate_sorts_by_calendar _ _ H1 H2).
Defined.

(** ** The image names across the two scripts *)

(** X5. The three commands agree on their names: the image the build
    command names with [-t] is the one the re-tag command reads, and the
    reference the re-tag command writes, that image under [sceccode/],
    is the one the push script pushes. *)
Theorem pushed_reference_is_tagged_image (env1 env2 : Env) :
  exists image build_cmd,
    commands (snd (run Build.main env1)) =
      [build_cmd; "docker tag " ++ image ++ " sceccode/" ++ image] /\
    Contains build_cmd (" -t " ++ image ++ " ") /\
    commands (snd (run Push.main env2)) =
      ["docker push sceccode/" ++ image].
Proof.
  exists "pycsep_quakeworx_workshop". eexists.
  rewrite commands_build, commands_push.
  split; [reflexivity |]. split; [| reflexivity].
  unfold Build.cmd_build. apply Contains_app_r, contains_sound.
  vm_compute; reflexivity.
Qed.
